(** * nefertari_es.fields

    A shallow embedding of [nefertari_es/fields.py]: the field-type adapters
    that sit on top of elasticsearch_dsl's [field] classes.  Python values are
    an inductive type, keyword arguments and mapping fragments are finite maps
    with string keys, exceptions are an error result, and everything the module
    imports (the elasticsearch_dsl base classes, dateutil's parser, [repr] and
    the document registry of [.meta]) is an interface the definitions are
    parametric in.

    Truthiness and [isinstance] follow Python 3 (3.5 and later): [bool] is a
    subclass of [int], and [datetime.time] objects are always true. *)

From stdpp Require Import gmap strings list fin_maps.
From Stdlib Require Import ZArith.

#[local] Open Scope Z_scope.
#[local] Set Warnings "-register-all".

(** ** Python values *)

(** [datetime.timedelta], normalised as CPython stores it. *)
Record timedelta := mk_timedelta {
  td_days : Z;
  td_seconds : Z;
  td_microseconds : Z
}.

(** [datetime.time]; [t_tzinfo] is the UTC offset in minutes of an aware
    time, [None] for a naive one. *)
Record time := mk_time {
  t_hour : Z;
  t_minute : Z;
  t_second : Z;
  t_microsecond : Z;
  t_tzinfo : option Z;
  t_fold : Z
}.

(** [datetime.datetime]. *)
Record datetime := mk_datetime {
  dt_year : Z;
  dt_month : Z;
  dt_day : Z;
  dt_hour : Z;
  dt_minute : Z;
  dt_second : Z;
  dt_microsecond : Z;
  dt_tzinfo : option Z;
  dt_fold : Z
}.

(** [datetime.datetime.time()]: same hour, minute, second, microsecond and
    fold; the date and the tzinfo are dropped. *)
Definition datetime_time (d : datetime) : time :=
  {| t_hour := dt_hour d;
     t_minute := dt_minute d;
     t_second := dt_second d;
     t_microsecond := dt_microsecond d;
     t_tzinfo := None;
     t_fold := dt_fold d |}.

(** A document class as the registry hands it out: its name and the names of
    the classes it inherits from. *)
Record py_class := mk_class {
  cls_name : string;
  cls_bases : list string
}.

Inductive value :=
| VNone
| VBool (b : bool)
| VInt (n : Z)
| VStr (s : string)
| VTuple (l : list value)
| VList (l : list value)
| VDict (d : gmap string value)
| VAttrList (l : list value)
| VAttrDict (d : gmap string value)
| VTimedelta (d : timedelta)
| VDatetime (d : datetime)
| VTime (t : time)
| VObject (c : py_class) (attrs : gmap string value).

(** Keyword arguments, mapping fragments and exported schema dictionaries. *)
Abbreviation dict := (gmap string value).

(** ** Exceptions *)

(** [ValidationException(msg, cause)] is the one exception this module
    raises itself; everything else comes from Python or from a library. *)
Inductive exn :=
| PyExc (cls : string) (msg : string)
| ValidationException (msg : string) (cause : option exn).

Inductive result (A : Type) :=
| Ok (a : A)
| Raise (e : exn).
Arguments Ok {A} a.
Arguments Raise {A} e.

#[global] Instance result_ret : MRet result := λ A a, Ok a.
#[global] Instance result_bind : MBind result := λ A B f m,
  match m with
  | Ok a => f a
  | Raise e => Raise e
  end.

(** ** Truth value testing and [isinstance] *)

Definition nonempty {A} (l : list A) : bool :=
  match l with
  | [] => false
  | _ :: _ => true
  end.

(** [bool(v)]. *)
Definition truthy (v : value) : bool :=
  match v with
  | VNone => false
  | VBool b => b
  | VInt n => negb (n =? 0)
  | VStr s => match s with EmptyString => false | String _ _ => true end
  | VTuple l | VList l | VAttrList l => nonempty l
  | VDict d | VAttrDict d => nonempty (map_to_list d)
  | VTimedelta d =>
      negb ((td_days d =? 0) && (td_seconds d =? 0) && (td_microseconds d =? 0))
  | VDatetime _ => true
  | VTime _ => true
  | VObject _ _ => true
  end.

(** The classes that appear on the right of an [isinstance] in the module. *)
Inductive py_type :=
| T_int
| T_list
| T_AttrDict
| T_AttrList
| T_datetime
| T_time
| T_class (c : py_class).

Definition isinstance1 (v : value) (t : py_type) : bool :=
  match t, v with
  | T_int, (VInt _ | VBool _) => true
  | T_list, VList _ => true
  | T_AttrDict, VAttrDict _ => true
  | T_AttrList, VAttrList _ => true
  | T_datetime, VDatetime _ => true
  | T_time, VTime _ => true
  | T_class c, VObject c' _ =>
      bool_decide (cls_name c ∈ cls_name c' :: cls_bases c')
  | _, _ => false
  end.

(** [isinstance(v, (t1, ..., tn))]. *)
Definition isinstance (v : value) (types : list py_type) : bool :=
  existsb (isinstance1 v) types.

(** The integer an [int] instance stands for ([True] is 1, [False] is 0). *)
Definition int_value (v : value) : Z :=
  match v with
  | VInt n => n
  | VBool true => 1
  | _ => 0
  end.

(** [datetime.timedelta(seconds=n)]: the day count is [n // 86400] and must
    have magnitude at most 999999999. *)
Definition timedelta_seconds (n : Z) : result timedelta :=
  let days := n / 86400 in
  if Z.abs days <=? 999999999
  then Ok {| td_days := days; td_seconds := n mod 86400; td_microseconds := 0 |}
  else Raise (PyExc "OverflowError" "days must have magnitude <= 999999999").

(** ** Dictionaries and strings *)

(** [d.pop(key, default)]. *)
Definition pop (key : string) (default : value) (d : dict) : value * dict :=
  (from_option id default (d !! key), delete key d).

(** [del d[key]]. *)
Definition del (key : string) (d : dict) : result dict :=
  match d !! key with
  | Some _ => Ok (delete key d)
  | None => Raise (PyExc "KeyError" key)
  end.

(** [data.update(other)]: every key of [other] is written over [data]. *)
Definition update (data other : dict) : dict := other ∪ data.

(** [s.startswith(p)]. *)
Fixpoint startswith (s p : string) {struct p} : bool :=
  match p, s with
  | EmptyString, _ => true
  | String a p', String b s' => bool_decide (a = b) && startswith s' p'
  | String _ _, EmptyString => false
  end.

(** [s[n:]]. *)
Fixpoint slice_from (n : nat) (s : string) : string :=
  match n, s with
  | O, _ => s
  | S n', String _ s' => slice_from n' s'
  | S _, EmptyString => EmptyString
  end.

(** ** Field classes *)

(** The field classes of the module. *)
Inductive field_class :=
| IdField
| IntervalField
| DictField
| DateTimeField
| DateField
| TimeField
| IntegerField
| SmallIntegerField
| StringField
| TextField
| UnicodeField
| UnicodeTextField
| BigIntegerField
| BooleanField
| FloatField
| BinaryField
| DecimalField
| ReferenceField.

(** The elasticsearch_dsl [field] classes they derive from. *)
Inductive lib_class :=
| LField
| LString
| LInteger
| LObject
| LDate
| LLong
| LBoolean
| LFloat
| LByte
| LDouble.

Definition lib_base (c : field_class) : lib_class :=
  match c with
  | IdField => LString
  | IntervalField => LInteger
  | DictField => LObject
  | DateTimeField => LField
  | DateField => LDate
  | TimeField => LField
  | IntegerField => LInteger
  | SmallIntegerField => LInteger
  | StringField => LString
  | TextField => LString
  | UnicodeField => LString
  | UnicodeTextField => LString
  | BigIntegerField => LLong
  | BooleanField => LBoolean
  | FloatField => LFloat
  | BinaryField => LByte
  | DecimalField => LDouble
  | ReferenceField => LString
  end.

(** Which classes list [BaseFieldMixin] among their bases. *)
Definition has_BaseFieldMixin (c : field_class) : bool :=
  match c with
  | ReferenceField => false
  | _ => true
  end.

(** Which classes list [CustomMappingMixin] among their bases. *)
Definition has_CustomMappingMixin (c : field_class) : bool :=
  match c with
  | IdField | DictField | DateTimeField | DateField | TimeField
  | ReferenceField => true
  | _ => false
  end.

(** The class attribute [_custom_mapping]; [None] where the class keeps the
    mixin's default. *)
Definition _custom_mapping (c : field_class) : option dict :=
  match c with
  | IdField => Some {[ "type" := VStr "string" ]}
  | DictField =>
      Some (<[ "type" := VStr "object" ]> {[ "enabled" := VBool false ]})
  | DateTimeField | DateField =>
      Some (<[ "type" := VStr "date" ]> {[ "format" := VStr "dateOptionalTime" ]})
  | TimeField =>
      Some (<[ "type" := VStr "date" ]> {[ "format" := VStr "HH:mm:ss" ]})
  | _ => None
  end.

(** A field object: its class and its instance attributes.  [_multi],
    [_required] and [_params] are the ones the elasticsearch_dsl constructor
    writes; an attribute a class never sets is [None]. *)
Record field := mk_field {
  f_class : field_class;
  _multi : value;
  _required : value;
  _params : dict;
  _primary_key : option value;
  _backref_kwargs : option dict;
  _is_backref : option value;
  _doc_class_name : option value
}.

(** [self._required = v]. *)
Definition set_required (v : value) (self : field) : field :=
  {| f_class := f_class self;
     _multi := _multi self;
     _required := v;
     _params := _params self;
     _primary_key := _primary_key self;
     _backref_kwargs := _backref_kwargs self;
     _is_backref := _is_backref self;
     _doc_class_name := _doc_class_name self |}.

(** What the elasticsearch_dsl constructor leaves on the object. *)
Record base_attrs := mk_base {
  b_multi : value;
  b_required : value;
  b_params : dict
}.

(** ** Imports

    The names the module imports and calls: the methods of the
    elasticsearch_dsl base classes reached through [super()],
    [dateutil.parser.parse], the built-in [repr] and [.meta]'s
    [get_document_cls].  Every exception they raise is an [Exception]. *)
Class Imports := {
  Field__init__ : lib_class → list value → dict → result base_attrs;
  Field_to_python : lib_class → field → value → result value;
  Field_clean : lib_class → field → value → result value;
  Field_empty : lib_class → field → result value;
  Field_to_dict : lib_class → field → result dict;
  parser_parse : value → result datetime;
  repr : value → string;
  get_document_cls : value → result py_class
}.

Section Fields.
Context `{Imports}.

(** ** BaseFieldMixin *)

(** [BaseFieldMixin.__init__] for a field of class [c]: [primary_key] is
    popped from the keyword arguments, a true one sets [required], and the
    rest goes to the next constructor in the resolution order, the
    elasticsearch_dsl one. *)
Definition BaseFieldMixin__init__ (c : field_class) (args : list value)
    (kwargs : dict) : result field :=
  let '(pk, kwargs) := pop "primary_key" (VBool false) kwargs in
  let kwargs := if truthy pk then <[ "required" := VBool true ]> kwargs else kwargs in
  b ← Field__init__ (lib_base c) args kwargs;
  mret {| f_class := c;
          _multi := b_multi b;
          _required := b_required b;
          _params := b_params b;
          _primary_key := Some pk;
          _backref_kwargs := None;
          _is_backref := None;
          _doc_class_name := None |}.

(** ** IdField *)

Definition IdField__init__ (args : list value) (kwargs : dict) : result field :=
  let kwargs := <[ "primary_key" := VBool true ]> kwargs in
  self ← BaseFieldMixin__init__ IdField args kwargs;
  mret (set_required (VBool false) self).

Definition IdField__empty (self : field) : value := VNone.

(** ** IntervalField, DateTimeField, TimeField *)

Definition IntervalField__to_python (self : field) (data : value) : result value :=
  if isinstance data [T_int]
  then td ← timedelta_seconds (int_value data); mret (VTimedelta td)
  else Field_to_python LInteger self data.

(** [(pre + '%r' + post) % data]: a tuple on the right is taken as the
    argument tuple of the format, anything else as its single argument. *)
Definition format_r (pre post : string) (data : value) : result string :=
  match data with
  | VTuple [] =>
      Raise (PyExc "TypeError" "not enough arguments for format string")
  | VTuple [x] => Ok (pre +:+ repr x +:+ post)
  | VTuple (_ :: _ :: _) =>
      Raise (PyExc "TypeError"
               "not all arguments converted during string formatting")
  | _ => Ok (pre +:+ repr data +:+ post)
  end.

Definition DateTimeField__to_python (data : value) : result value :=
  if negb (truthy data) then mret VNone
  else if isinstance data [T_datetime] then mret data
  else match parser_parse data with
       | Ok d => mret (VDatetime d)
       | Raise e =>
           msg ← format_r "Could not parse datetime from the value (" ")" data;
           Raise (ValidationException msg (Some e))
       end.

Definition TimeField__to_python (data : value) : result value :=
  if negb (truthy data) then mret VNone
  else if isinstance data [T_time] then mret data
  else match data with
       | VDatetime d => mret (VTime (datetime_time d))
       | _ =>
           match parser_parse data with
           | Ok d => mret (VTime (datetime_time d))
           | Raise e =>
               msg ← format_r "Could not parse time from the value (" ")" data;
               Raise (ValidationException msg (Some e))
           end
       end.

(** [self._to_python(data)], by the class of [self]. *)
Definition _to_python (self : field) (data : value) : result value :=
  match f_class self with
  | IntervalField => IntervalField__to_python self data
  | DateTimeField => DateTimeField__to_python data
  | TimeField => TimeField__to_python data
  | c => Field_to_python (lib_base c) self data
  end.

(** ** CustomMappingMixin *)

Definition CustomMappingMixin_to_dict (self : field) : result dict :=
  data ← Field_to_dict (lib_base (f_class self)) self;
  match _custom_mapping (f_class self) with
  | Some mapping => mret (update data mapping)
  | None => mret data
  end.

(** [self.to_dict()], by the class of [self]. *)
Definition to_dict (self : field) : result dict :=
  if has_CustomMappingMixin (f_class self)
  then CustomMappingMixin_to_dict self
  else Field_to_dict (lib_base (f_class self)) self.

(** ** ReferenceField *)

Definition _backref_prefix : string := "backref_".

(** The dict comprehension of the constructor: the options whose key starts
    with the prefix, under the key without it. *)
Definition backref_kwargs_of (kwargs : dict) : dict :=
  let prefix_len := String.length _backref_prefix in
  map_fold
    (λ key val acc,
       if startswith key _backref_prefix
       then <[ slice_from prefix_len key := val ]> acc
       else acc)
    ∅ kwargs.

(** The loop [for key in self._backref_kwargs: del kwargs[prefix + key]]. *)
Definition del_backref_keys (backref_kwargs kwargs : dict) : result dict :=
  map_fold
    (λ key _ acc, kw ← acc; del (_backref_prefix +:+ key) kw)
    (Ok kwargs) backref_kwargs.

Definition ReferenceField__init__ (doc_class is_backref : value)
    (args : list value) (kwargs : dict) : result field :=
  let backref_kwargs := backref_kwargs_of kwargs in
  kwargs ← del_backref_keys backref_kwargs kwargs;
  b ← Field__init__ LString args kwargs;
  mret {| f_class := ReferenceField;
          _multi := b_multi b;
          _required := b_required b;
          _params := b_params b;
          _primary_key := None;
          _backref_kwargs := Some backref_kwargs;
          _is_backref := Some is_backref;
          _doc_class_name := Some doc_class |}.

(** The property [_doc_class]: a registry lookup at every read. *)
Definition ReferenceField__doc_class (self : field) : result py_class :=
  match _doc_class_name self with
  | Some name => get_document_cls name
  | None => Raise (PyExc "AttributeError" "_doc_class_name")
  end.

Definition ReferenceField_empty (self : field) : result value :=
  if negb (truthy (_required self))
  then mret (if truthy (_multi self) then VAttrList [] else VNone)
  else Field_empty LString self.

Definition ReferenceField_clean (self : field) (data : value) : result value :=
  cls ← ReferenceField__doc_class self;
  let types := [T_class cls; T_list; T_AttrDict; T_AttrList] in
  if negb (isinstance data types) then mret data
  else Field_clean LString self data.

Definition ReferenceField__backref_field_name (self : field) : value :=
  match _backref_kwargs self with
  | Some kw => from_option id VNone (kw !! "name")
  | None => VNone
  end.

(** ** Calling a field class *)

(** A call of [ReferenceField] with positional and keyword arguments: Python binds the first two positional
    arguments, or the keywords of the same names, to [doc_class] and
    [is_backref]. *)
Definition ReferenceField_call (args : list value) (kwargs : dict) : result field :=
  match args with
  | [] =>
      match kwargs !! "doc_class" with
      | None => Raise (PyExc "TypeError" "missing required argument: doc_class")
      | Some d =>
          let '(b, kwargs) := pop "is_backref" (VBool false) (delete "doc_class" kwargs) in
          ReferenceField__init__ d b [] kwargs
      end
  | [d] =>
      match kwargs !! "doc_class" with
      | Some _ => Raise (PyExc "TypeError" "multiple values for argument: doc_class")
      | None =>
          let '(b, kwargs) := pop "is_backref" (VBool false) kwargs in
          ReferenceField__init__ d b [] kwargs
      end
  | d :: b :: rest =>
      match kwargs !! "doc_class", kwargs !! "is_backref" with
      | None, None => ReferenceField__init__ d b rest kwargs
      | Some _, _ => Raise (PyExc "TypeError" "multiple values for argument: doc_class")
      | None, Some _ => Raise (PyExc "TypeError" "multiple values for argument: is_backref")
      end
  end.

(** A call of the field class [c] with positional and keyword arguments. *)
Definition construct (c : field_class) (args : list value) (kwargs : dict) : result field :=
  match c with
  | IdField => IdField__init__ args kwargs
  | ReferenceField => ReferenceField_call args kwargs
  | _ => BaseFieldMixin__init__ c args kwargs
  end.

(** [Relationship(document_type, uselist, nested, **kw)]: a reference field
    with [multi=uselist]; [nested] is not used.  A [multi] or [doc_class]
    among [kw] is a second value for the same keyword. *)
Definition Relationship (document_type uselist nested : value) (kw : dict) : result field :=
  match kw !! "multi", kw !! "doc_class" with
  | None, None =>
      construct ReferenceField []
        (<[ "multi" := uselist ]> (<[ "doc_class" := document_type ]> kw))
  | Some _, _ => Raise (PyExc "TypeError" "multiple values for keyword argument: multi")
  | None, Some _ => Raise (PyExc "TypeError" "multiple values for keyword argument: doc_class")
  end.

End Fields.

(** ** A concrete environment

    A small instance of [Imports] on which the definitions can be run.  The
    constructor and the methods behave as those of elasticsearch_dsl's [Field]
    base class, the parser knows one timestamp and rejects every other
    string, and the registry holds one document class. *)
Module Demo.

Definition init (lc : lib_class) (args : list value) (kwargs : dict) : result base_attrs :=
  match args with
  | [] =>
      let '(multi, kwargs) := pop "multi" (VBool false) kwargs in
      let '(required, kwargs) := pop "required" (VBool false) kwargs in
      Ok {| b_multi := multi; b_required := required; b_params := kwargs |}
  | _ :: _ => Raise (PyExc "TypeError" "__init__() takes 1 positional argument")
  end.

Definition to_python (lc : lib_class) (self : field) (data : value) : result value :=
  Ok data.

Definition is_blank (data : value) : bool :=
  match data with
  | VNone => true
  | VList [] => true
  | VDict d => negb (nonempty (map_to_list d))
  | _ => false
  end.

Definition clean (lc : lib_class) (self : field) (data : value) : result value :=
  if is_blank data && truthy (_required self)
  then Raise (ValidationException "Value required for this field." None)
  else Ok data.

Definition empty (lc : lib_class) (self : field) : result value :=
  Ok (if truthy (_multi self) then VAttrList [] else VNone).

Definition type_name (lc : lib_class) : string :=
  match lc with
  | LField => "field"
  | LString => "string"
  | LInteger => "integer"
  | LObject => "object"
  | LDate => "date"
  | LLong => "long"
  | LBoolean => "boolean"
  | LFloat => "float"
  | LByte => "byte"
  | LDouble => "double"
  end.

Definition export (lc : lib_class) (self : field) : result dict :=
  Ok (<[ "type" := VStr (type_name lc) ]> (_params self)).

Definition half_past_noon : datetime :=
  {| dt_year := 2015; dt_month := 6; dt_day := 1;
     dt_hour := 12; dt_minute := 30; dt_second := 0; dt_microsecond := 0;
     dt_tzinfo := Some 120; dt_fold := 0 |}.

Definition parse (data : value) : result datetime :=
  match data with
  | VStr s =>
      if String.eqb s "2015-06-01T12:30:00+02:00" then Ok half_past_noon
      else Raise (PyExc "ValueError" "Unknown string format")
  | _ => Raise (PyExc "TypeError" "Parser must be a string or character stream")
  end.

Definition show (v : value) : string :=
  match v with
  | VNone => "None"
  | VBool true => "True"
  | VBool false => "False"
  | VStr s => "'" +:+ s +:+ "'"
  | _ => "<object>"
  end.

Definition story : py_class :=
  {| cls_name := "Story"; cls_bases := ["BaseDocument"; "DocType"] |}.

Definition lookup_cls (name : value) : result py_class :=
  match name with
  | VStr s =>
      if String.eqb s "Story" then Ok story
      else Raise (PyExc "LookupError" s)
  | _ => Raise (PyExc "LookupError" "")
  end.

Definition imports : Imports :=
  {| Field__init__ := init;
     Field_to_python := to_python;
     Field_clean := clean;
     Field_empty := empty;
     Field_to_dict := export;
     parser_parse := parse;
     repr := show;
     get_document_cls := lookup_cls |}.

(** A field object of class [c] as [init] leaves it when called without
    options. *)
Definition plain (c : field_class) : field :=
  {| f_class := c;
     _multi := VBool false;
     _required := VBool false;
     _params := ∅;
     _primary_key := if has_BaseFieldMixin c then Some (VBool false) else None;
     _backref_kwargs := if has_BaseFieldMixin c then None else Some ∅;
     _is_backref := if has_BaseFieldMixin c then None else Some (VBool false);
     _doc_class_name := None |}.

(** A reference field with target [name]. *)
Definition reference (name : string) : field :=
  {| f_class := ReferenceField;
     _multi := VBool false;
     _required := VBool false;
     _params := ∅;
     _primary_key := None;
     _backref_kwargs := Some ∅;
     _is_backref := Some (VBool false);
     _doc_class_name := Some (VStr name) |}.

Definition an_hour : timedelta :=
  {| td_days := 0; td_seconds := 3600; td_microseconds := 0 |}.

Definition midnight : time :=
  {| t_hour := 0; t_minute := 0; t_second := 0; t_microsecond := 0;
     t_tzinfo := None; t_fold := 0 |}.

End Demo.

(** * Properties *)

(** ** Strings and keyword dictionaries *)

Section Strings.

Lemma startswith_app (p r : string) : startswith (p +:+ r) p = true.
Proof.
  induction p as [| a p IH]; simpl; [done |].
  rewrite bool_decide_eq_true_2 by done. exact IH.
Qed.

Lemma startswith_inv (s p : string) :
  startswith s p = true → s = p +:+ slice_from (String.length p) s.
Proof.
  revert s. induction p as [| a p IH]; intros s Hs; simpl in *; [done |].
  destruct s as [| b s]; [done |].
  apply andb_true_iff in Hs as [Hab Hs].
  apply bool_decide_eq_true_1 in Hab as ->.
  change (String b s = String b (p +:+ slice_from (String.length p) s)).
  f_equal. by apply IH.
Qed.

Lemma slice_from_app (p r : string) : slice_from (String.length p) (p +:+ r) = r.
Proof. induction p as [| a p IH]; simpl; [| exact IH]. destruct r; reflexivity. Qed.

Lemma prefix_app_inj (p r r' : string) : p +:+ r = p +:+ r' → r = r'.
Proof.
  intros Heq. rewrite <- (slice_from_app p r), <- (slice_from_app p r').
  by rewrite Heq.
Qed.

End Strings.

Section Backref.

Lemma backref_kwargs_of_lookup (kwargs : dict) (key : string) :
  backref_kwargs_of kwargs !! key = kwargs !! (_backref_prefix +:+ key).
Proof.
  revert key. unfold backref_kwargs_of.
  apply (map_fold_weak_ind
           (λ (r : dict) (m : dict), ∀ key, r !! key = m !! (_backref_prefix +:+ key))).
  - intros key. by rewrite !lookup_empty.
  - intros i x m r Hi IH key.
    destruct (startswith i _backref_prefix) eqn:Hp.
    + apply startswith_inv in Hp.
      destruct (decide (slice_from (String.length _backref_prefix) i = key)) as [<- | Hne].
      * rewrite lookup_insert_eq. rewrite <- Hp. by rewrite lookup_insert_eq.
      * rewrite !lookup_insert_ne; [apply IH | | done].
        intros Heq. apply Hne. rewrite Heq. apply slice_from_app.
    + rewrite lookup_insert_ne; [apply IH |].
      intros ->. by rewrite startswith_app in Hp.
Qed.

Lemma del_backref_keys_lookup (kwargs backref_kwargs : dict) :
  (∀ key, is_Some (backref_kwargs !! key) →
          is_Some (kwargs !! (_backref_prefix +:+ key))) →
  ∃ kw, del_backref_keys backref_kwargs kwargs = Ok kw ∧
        ∀ k, kw !! k =
             if startswith k _backref_prefix
             then match backref_kwargs !! slice_from (String.length _backref_prefix) k with
                  | Some _ => None
                  | None => kwargs !! k
                  end
             else kwargs !! k.
Proof.
  unfold del_backref_keys.
  apply (map_fold_weak_ind
    (λ (r : result dict) (m : dict),
       (∀ key, is_Some (m !! key) → is_Some (kwargs !! (_backref_prefix +:+ key))) →
       ∃ kw, r = Ok kw ∧
             ∀ k, kw !! k =
                  if startswith k _backref_prefix
                  then match m !! slice_from (String.length _backref_prefix) k with
                       | Some _ => None
                       | None => kwargs !! k
                       end
                  else kwargs !! k)).
  - intros _. exists kwargs. split; [done |].
    intros k. rewrite lookup_empty. by destruct (startswith k _backref_prefix).
  - intros i x m r Hi IH Hsub.
    destruct IH as (kw & -> & Hkw).
    { intros key Hkey. apply Hsub. rewrite lookup_insert_ne; [done |].
      intros ->. rewrite Hi in Hkey. by destruct Hkey. }
    assert (is_Some (kw !! (_backref_prefix +:+ i))) as [v Hv].
    { rewrite Hkw, startswith_app, slice_from_app, Hi.
      apply Hsub. rewrite lookup_insert_eq. by eexists. }
    exists (delete (_backref_prefix +:+ i) kw). split.
    { simpl. unfold del. by rewrite Hv. }
    intros k. destruct (decide (k = _backref_prefix +:+ i)) as [-> | Hne].
    + by rewrite lookup_delete_eq, startswith_app, slice_from_app, lookup_insert_eq.
    + rewrite lookup_delete_ne by done. rewrite Hkw.
      destruct (startswith k _backref_prefix) eqn:Hp; [| done].
      rewrite lookup_insert_ne; [done |].
      intros Heq. apply Hne. apply startswith_inv in Hp. by rewrite Hp, <- Heq.
Qed.

Lemma del_backref_keys_of (kwargs : dict) :
  ∃ kw, del_backref_keys (backref_kwargs_of kwargs) kwargs = Ok kw ∧
        ∀ k, kw !! k = if startswith k _backref_prefix then None else kwargs !! k.
Proof.
  destruct (del_backref_keys_lookup kwargs (backref_kwargs_of kwargs)) as (kw & Hkw & Hl).
  { intros key. by rewrite backref_kwargs_of_lookup. }
  exists kw. split; [done |].
  intros k. rewrite Hl. destruct (startswith k _backref_prefix) eqn:Hp; [| done].
  rewrite backref_kwargs_of_lookup. apply startswith_inv in Hp. rewrite <- Hp.
  by destruct (kwargs !! k).
Qed.

End Backref.

(** ** Coercion *)

Section Coercion.
Context `{Imports}.

(** C1. Coercion applied to a value that already has the typed
    representation returns it unchanged: a timestamp under datetime coercion,
    a time of day under time coercion, and a duration under interval
    coercion, which hands every non-integer to the base class coercion and
    so returns the duration as the base class returns it. *)
Theorem coercion_of_typed_value (self : field) (td : timedelta) :
  Field_to_python LInteger self (VTimedelta td) = Ok (VTimedelta td) →
  IntervalField__to_python self (VTimedelta td) = Ok (VTimedelta td) ∧
  (∀ d, DateTimeField__to_python (VDatetime d) = Ok (VDatetime d)) ∧
  (∀ t, TimeField__to_python (VTime t) = Ok (VTime t)).
Proof.
  intros Hbase. split; [| split].
  - unfold IntervalField__to_python. simpl. exact Hbase.
  - intros d. reflexivity.
  - intros t. reflexivity.
Qed.

(** C4. Datetime coercion, case by case in the order the code tests them: a
    falsy input gives [None]; a timestamp comes back unchanged; a string that
    reaches the parser (a non-empty one) gives the parser's result, and when
    the parser fails the coercion raises a [ValidationException] whose
    message is built from the [repr] of the original value and whose second
    argument is the parser's error. *)
Theorem datetime_coercion_cases :
  (∀ data, truthy data = false → DateTimeField__to_python data = Ok VNone) ∧
  (∀ d, DateTimeField__to_python (VDatetime d) = Ok (VDatetime d)) ∧
  (∀ s d, s ≠ "" → parser_parse (VStr s) = Ok d →
          DateTimeField__to_python (VStr s) = Ok (VDatetime d)) ∧
  (∀ s e, s ≠ "" → parser_parse (VStr s) = Raise e →
          DateTimeField__to_python (VStr s) =
          Raise (ValidationException
                   ("Could not parse datetime from the value (" +:+ repr (VStr s) +:+ ")")
                   (Some e))).
Proof.
  repeat split.
  - intros data Hfalsy. unfold DateTimeField__to_python. by rewrite Hfalsy.
  - intros s d Hs Hparse. unfold DateTimeField__to_python.
    destruct s as [| a s]; [done |]. simpl. by rewrite Hparse.
  - intros s e Hs Hparse. unfold DateTimeField__to_python.
    destruct s as [| a s]; [done |]. simpl. by rewrite Hparse.
Qed.

(** C5. Time coercion of a full timestamp returns its time-of-day component
    (the result of [datetime.time()], which keeps hour, minute, second and
    microsecond and drops the date), and time coercion of a string that
    reaches the parser returns the time-of-day component of the parsed
    timestamp. *)
Theorem time_coercion_time_of_day :
  (∀ d, TimeField__to_python (VDatetime d) = Ok (VTime (datetime_time d))) ∧
  (∀ s d, s ≠ "" → parser_parse (VStr s) = Ok d →
          TimeField__to_python (VStr s) = Ok (VTime (datetime_time d))) ∧
  (∀ d, t_hour (datetime_time d) = dt_hour d ∧
        t_minute (datetime_time d) = dt_minute d ∧
        t_second (datetime_time d) = dt_second d ∧
        t_microsecond (datetime_time d) = dt_microsecond d).
Proof.
  split; [| split].
  - intros d. reflexivity.
  - intros s d Hs Hparse. unfold TimeField__to_python.
    destruct s as [| a s]; [done |]. simpl. by rewrite Hparse.
  - intros d. by repeat split.
Qed.

(** C6, amended. For every non-empty string the parser cannot parse,
    datetime coercion and time coercion each raise a [ValidationException],
    and nothing else; the exception's message is built from the [repr] of
    the original string and its second argument is the parser's error. *)
Theorem unparseable_string_raises (s : string) (e : exn) :
  s ≠ "" →
  parser_parse (VStr s) = Raise e →
  DateTimeField__to_python (VStr s) =
    Raise (ValidationException
             ("Could not parse datetime from the value (" +:+ repr (VStr s) +:+ ")")
             (Some e)) ∧
  TimeField__to_python (VStr s) =
    Raise (ValidationException
             ("Could not parse time from the value (" +:+ repr (VStr s) +:+ ")")
             (Some e)).
Proof.
  intros Hs Hparse. destruct s as [| a s]; [done |].
  unfold DateTimeField__to_python, TimeField__to_python. simpl.
  by rewrite Hparse.
Qed.

End Coercion.

(** ** Construction *)

Section Construction.
Context `{Imports}.

(** C2, amended. Every field class that has [BaseFieldMixin] among its bases
    (all but the reference field) takes a [primary_key] option, which is
    popped before the base constructor runs; for each of them other than the
    identifier field, [primary_key=True] hands [required=True] to the base
    constructor, so that a base constructor that stores the [required]
    option it is given leaves the required flag true. *)
Theorem primary_key_forces_required (c : field_class) (args : list value)
    (kwargs : dict) (b : base_attrs) :
  (∀ lc a kw b', Field__init__ lc a kw = Ok b' →
                 b_required b' = from_option id (VBool false) (kw !! "required")) →
  has_BaseFieldMixin c = true →
  c ≠ IdField →
  kwargs !! "primary_key" = Some (VBool true) →
  Field__init__ (lib_base c) args
    (<[ "required" := VBool true ]> (delete "primary_key" kwargs)) = Ok b →
  ∃ self, construct c args kwargs = Ok self ∧
          f_class self = c ∧
          _primary_key self = Some (VBool true) ∧
          _required self = VBool true.
Proof.
  intros Hlib Hmixin Hid Hpk Hinit.
  assert (construct c args kwargs = BaseFieldMixin__init__ c args kwargs) as ->
    by (by destruct c).
  unfold BaseFieldMixin__init__, pop. rewrite Hpk. simpl. rewrite Hinit. simpl.
  eexists. split; [reflexivity |]. simpl.
  repeat split. rewrite (Hlib _ _ _ _ Hinit). by rewrite lookup_insert_eq.
Qed.

(** C7. Constructing the identifier field yields, whatever the options,
    a descriptor whose required flag is [False] and whose primary-key flag
    is [True], as soon as the base constructor accepts the options handed to
    it; its [_empty] is [None]. *)
Theorem idfield_flags (args : list value) (kwargs : dict) (b : base_attrs) :
  Field__init__ LString args
    (<[ "required" := VBool true ]> (delete "primary_key" kwargs)) = Ok b →
  ∃ self, construct IdField args kwargs = Ok self ∧
          _required self = VBool false ∧
          _primary_key self = Some (VBool true) ∧
          IdField__empty self = VNone.
Proof.
  intros Hinit. simpl. unfold IdField__init__, BaseFieldMixin__init__, pop.
  rewrite lookup_insert_eq, delete_insert_eq. simpl. rewrite Hinit. simpl.
  eexists. split; [reflexivity |]. by repeat split.
Qed.

End Construction.

(** ** Reference fields *)

Section Reference.
Context `{Imports}.

(** C3. When the target class resolves, [clean] hands a list, an [AttrDict],
    an [AttrList] or an instance of the resolved class to the base class's
    [clean], and returns every other value as it is, whatever the base
    class's [clean] would do with it. *)
Theorem reference_clean_cases (self : field) (cls : py_class) (data : value) :
  ReferenceField__doc_class self = Ok cls →
  ReferenceField_clean self data =
    match data with
    | VList _ | VAttrDict _ | VAttrList _ => Field_clean LString self data
    | VObject c _ =>
        if bool_decide (cls_name cls ∈ cls_name c :: cls_bases c)
        then Field_clean LString self data
        else Ok data
    | _ => Ok data
    end.
Proof.
  intros Hcls. unfold ReferenceField_clean. rewrite Hcls. simpl.
  destruct data; simpl; try reflexivity.
  by destruct (bool_decide _).
Qed.

(** C10. [clean] reads the [_doc_class] property, a registry lookup by the
    stored name, before it looks at the value: when the lookup raises,
    [clean] raises the same error for every input, raw values included. *)
Theorem reference_clean_unregistered (self : field) (name : value) (e : exn) :
  _doc_class_name self = Some name →
  get_document_cls name = Raise e →
  ∀ data, ReferenceField_clean self data = Raise e.
Proof.
  intros Hname Hlookup data.
  unfold ReferenceField_clean, ReferenceField__doc_class.
  by rewrite Hname, Hlookup.
Qed.

(** C8. The constructor never fails on its own: it stores every option whose
    key starts with [backref_] under the key without the prefix, and calls
    the base constructor with exactly the options whose key does not start
    with it. *)
Theorem reference_backref_kwargs (doc_class is_backref : value)
    (args : list value) (kwargs : dict) :
  ∃ base_kwargs : dict,
    (∀ key, backref_kwargs_of kwargs !! key = kwargs !! (_backref_prefix +:+ key)) ∧
    (∀ key, base_kwargs !! key =
            if startswith key _backref_prefix then None else kwargs !! key) ∧
    ReferenceField__init__ doc_class is_backref args kwargs =
      (b ← Field__init__ LString args base_kwargs;
       mret {| f_class := ReferenceField;
               _multi := b_multi b;
               _required := b_required b;
               _params := b_params b;
               _primary_key := None;
               _backref_kwargs := Some (backref_kwargs_of kwargs);
               _is_backref := Some is_backref;
               _doc_class_name := Some doc_class |}) ∧
    backref_kwargs_of {[ "backref_name" := VStr "authored_posts" ]} =
      {[ "name" := VStr "authored_posts" ]}.
Proof.
  destruct (del_backref_keys_of kwargs) as (kw & Hdel & Hkw).
  exists kw. split; [| split; [| split]].
  - apply backref_kwargs_of_lookup.
  - exact Hkw.
  - unfold ReferenceField__init__. by rewrite Hdel.
  - by vm_compute.
Qed.

End Reference.

(** ** Custom mappings *)

Section Mapping.
Context `{Imports}.

(** C9. Where the base export returns [data], the export of a field with a
    custom mapping fragment holds every entry of the fragment and, at every
    key outside the fragment, what [data] holds there, so no key of [data]
    is lost; the export of a Dict field holds [type: object] and
    [enabled: False]. *)
Theorem custom_mapping_export (self : field) (data : dict) :
  Field_to_dict (lib_base (f_class self)) self = Ok data →
  ∃ out, to_dict self = Ok out ∧
    (∀ mapping, _custom_mapping (f_class self) = Some mapping →
       (∀ k v, mapping !! k = Some v → out !! k = Some v) ∧
       (∀ k, mapping !! k = None → out !! k = data !! k)) ∧
    (∀ k, is_Some (data !! k) → is_Some (out !! k)) ∧
    (f_class self = DictField →
       out !! "type" = Some (VStr "object") ∧
       out !! "enabled" = Some (VBool false)).
Proof.
  intros Hbase. unfold to_dict, CustomMappingMixin_to_dict. rewrite Hbase.
  destruct (_custom_mapping (f_class self)) as [mapping |] eqn:Hmap.
  - exists (update data mapping). split.
    { by destruct (has_CustomMappingMixin (f_class self)) eqn:Hmixin;
        [| destruct (f_class self)]. }
    unfold update. split; [| split].
    + intros m [= <-]. split.
      * intros k v Hk. by apply lookup_union_Some_l.
      * intros k Hk. by apply lookup_union_r.
    + intros k Hk. rewrite lookup_union_is_Some. by right.
    + intros Hdict. rewrite Hdict in Hmap. injection Hmap as <-.
      split; by apply lookup_union_Some_l.
  - exists data. split.
    { by destruct (has_CustomMappingMixin (f_class self)). }
    split; [done |]. split; [done |].
    intros Hdict. by rewrite Hdict in Hmap.
Qed.

End Mapping.

(** ** The properties on the concrete environment *)

Lemma Demo_init_required (lc : lib_class) (a : list value) (kw : dict) (b : base_attrs) :
  Demo.init lc a kw = Ok b →
  b_required b = from_option id (VBool false) (kw !! "required").
Proof.
  unfold Demo.init, pop. destruct a; [| done].
  intros [= <-]. simpl. by rewrite lookup_delete_ne.
Qed.

Lemma coercion_of_typed_value_witness :
  @Field_to_python Demo.imports LInteger (Demo.plain IntervalField)
    (VTimedelta Demo.an_hour) = Ok (VTimedelta Demo.an_hour) ∧
  (@IntervalField__to_python Demo.imports (Demo.plain IntervalField)
     (VTimedelta Demo.an_hour) = Ok (VTimedelta Demo.an_hour) ∧
   (∀ d, @DateTimeField__to_python Demo.imports (VDatetime d) = Ok (VDatetime d)) ∧
   (∀ t, @TimeField__to_python Demo.imports (VTime t) = Ok (VTime t))).
Proof.
  split; [reflexivity |].
  apply (@coercion_of_typed_value Demo.imports). reflexivity.
Defined.

Lemma datetime_coercion_cases_witness :
  @DateTimeField__to_python Demo.imports (VStr "") = Ok VNone ∧
  @DateTimeField__to_python Demo.imports (VInt 0) = Ok VNone ∧
  @DateTimeField__to_python Demo.imports (VDatetime Demo.half_past_noon) =
    Ok (VDatetime Demo.half_past_noon) ∧
  @DateTimeField__to_python Demo.imports (VStr "2015-06-01T12:30:00+02:00") =
    Ok (VDatetime Demo.half_past_noon) ∧
  @DateTimeField__to_python Demo.imports (VStr "next tuesday") =
    Raise (ValidationException
             "Could not parse datetime from the value ('next tuesday')"
             (Some (PyExc "ValueError" "Unknown string format"))).
Proof.
  destruct (@datetime_coercion_cases Demo.imports) as (Hfalsy & Htyped & Hparsed & Hfailed).
  split; [by apply Hfalsy |].
  split; [by apply Hfalsy |].
  split; [apply Htyped |].
  split; [by apply Hparsed |].
  by apply (Hfailed "next tuesday").
Defined.

(** Outside the strings: a two-element tuple is rejected by the parser, and
    the message formatting in the handler then takes the tuple as the
    format's argument list and raises [TypeError] itself. *)
Example datetime_coercion_of_pair :
  @DateTimeField__to_python Demo.imports (VTuple [VInt 1; VInt 2]) =
    Raise (PyExc "TypeError" "not all arguments converted during string formatting").
Proof. reflexivity. Qed.

Lemma time_coercion_time_of_day_witness :
  @TimeField__to_python Demo.imports (VDatetime Demo.half_past_noon) =
    Ok (VTime (mk_time 12 30 0 0 None 0)) ∧
  @TimeField__to_python Demo.imports (VStr "2015-06-01T12:30:00+02:00") =
    Ok (VTime (mk_time 12 30 0 0 None 0)).
Proof.
  destruct (@time_coercion_time_of_day Demo.imports) as (Htyped & Hparsed & _).
  split; [apply Htyped |].
  by apply (Hparsed "2015-06-01T12:30:00+02:00" Demo.half_past_noon).
Defined.

(** C6, as stated, fails at the empty string: the parser rejects it, yet
    neither coercion raises; both return [None], because the falsy test comes
    before the parser is called. *)
Lemma unparseable_empty_string_counterexample :
  @parser_parse Demo.imports (VStr "") =
    Raise (PyExc "ValueError" "Unknown string format") ∧
  @DateTimeField__to_python Demo.imports (VStr "") = Ok VNone ∧
  @TimeField__to_python Demo.imports (VStr "") = Ok VNone.
Proof. by repeat split. Qed.

Lemma unparseable_string_raises_witness :
  "next tuesday" ≠ "" ∧
  @parser_parse Demo.imports (VStr "next tuesday") =
    Raise (PyExc "ValueError" "Unknown string format") ∧
  (@DateTimeField__to_python Demo.imports (VStr "next tuesday") =
     Raise (ValidationException
              "Could not parse datetime from the value ('next tuesday')"
              (Some (PyExc "ValueError" "Unknown string format"))) ∧
   @TimeField__to_python Demo.imports (VStr "next tuesday") =
     Raise (ValidationException
              "Could not parse time from the value ('next tuesday')"
              (Some (PyExc "ValueError" "Unknown string format")))).
Proof.
  split; [done |]. split; [reflexivity |].
  by apply (@unparseable_string_raises Demo.imports "next tuesday").
Defined.

(** C2, as stated, fails on the identifier field, which resets the flag after
    the mixin has set it, and on the reference field, which has no
    [BaseFieldMixin] and hands [primary_key] to the base constructor as any
    other option. *)
Lemma primary_key_required_counterexample :
  (∃ self, @construct Demo.imports IdField [] {[ "primary_key" := VBool true ]} = Ok self ∧
           _required self = VBool false) ∧
  (∃ self, @construct Demo.imports ReferenceField [VStr "Story"]
             {[ "primary_key" := VBool true ]} = Ok self ∧
           _required self = VBool false ∧
           _primary_key self = None ∧
           _params self !! "primary_key" = Some (VBool true)).
Proof.
  split; eexists; (split; [by vm_compute |]); by vm_compute.
Qed.

Lemma primary_key_forces_required_witness :
  has_BaseFieldMixin StringField = true ∧
  StringField ≠ IdField ∧
  ({[ "primary_key" := VBool true ]} : dict) !! "primary_key" = Some (VBool true) ∧
  ∃ self, @construct Demo.imports StringField [] {[ "primary_key" := VBool true ]} = Ok self ∧
          f_class self = StringField ∧
          _primary_key self = Some (VBool true) ∧
          _required self = VBool true.
Proof.
  split; [reflexivity |]. split; [discriminate |]. split; [reflexivity |].
  apply (@primary_key_forces_required Demo.imports StringField []
           {[ "primary_key" := VBool true ]}
           (mk_base (VBool false) (VBool true) ∅)).
  - exact Demo_init_required.
  - reflexivity.
  - discriminate.
  - reflexivity.
  - by vm_compute.
Defined.

Lemma idfield_flags_witness :
  ∃ self, @construct Demo.imports IdField []
            (<[ "required" := VBool true ]> {[ "primary_key" := VBool false ]}) = Ok self ∧
          _required self = VBool false ∧
          _primary_key self = Some (VBool true) ∧
          IdField__empty self = VNone.
Proof.
  apply (@idfield_flags Demo.imports [] _ (mk_base (VBool false) (VBool true) ∅)).
  by vm_compute.
Defined.

Lemma reference_clean_cases_witness :
  @ReferenceField__doc_class Demo.imports (Demo.reference "Story") = Ok Demo.story ∧
  @ReferenceField_clean Demo.imports (Demo.reference "Story") (VInt 7) = Ok (VInt 7) ∧
  @ReferenceField_clean Demo.imports (Demo.reference "Story") (VList []) =
    Demo.clean LString (Demo.reference "Story") (VList []) ∧
  @ReferenceField_clean Demo.imports (Demo.reference "Story") (VObject Demo.story ∅) =
    Demo.clean LString (Demo.reference "Story") (VObject Demo.story ∅).
Proof.
  split; [reflexivity |].
  split; [| split].
  - by apply (@reference_clean_cases Demo.imports _ Demo.story (VInt 7)).
  - by apply (@reference_clean_cases Demo.imports _ Demo.story (VList [])).
  - by apply (@reference_clean_cases Demo.imports _ Demo.story (VObject Demo.story ∅)).
Defined.

Lemma reference_clean_unregistered_witness :
  _doc_class_name (Demo.reference "Author") = Some (VStr "Author") ∧
  @get_document_cls Demo.imports (VStr "Author") = Raise (PyExc "LookupError" "Author") ∧
  ∀ data, @ReferenceField_clean Demo.imports (Demo.reference "Author") data =
          Raise (PyExc "LookupError" "Author").
Proof.
  split; [reflexivity |]. split; [reflexivity |].
  by apply (@reference_clean_unregistered Demo.imports _ (VStr "Author")).
Defined.

Lemma custom_mapping_export_witness :
  @Field_to_dict Demo.imports LObject (Demo.plain DictField) =
    Ok {[ "type" := VStr "object" ]} ∧
  ∃ out, @to_dict Demo.imports (Demo.plain DictField) = Ok out ∧
    (∀ mapping, _custom_mapping DictField = Some mapping →
       (∀ k v, mapping !! k = Some v → out !! k = Some v) ∧
       (∀ k, mapping !! k = None →
             out !! k = ({[ "type" := VStr "object" ]} : dict) !! k)) ∧
    (∀ k, is_Some (({[ "type" := VStr "object" ]} : dict) !! k) → is_Some (out !! k)) ∧
    (DictField = DictField →
       out !! "type" = Some (VStr "object") ∧
       out !! "enabled" = Some (VBool false)).
Proof.
  split; [reflexivity |].
  by apply (@custom_mapping_export Demo.imports (Demo.plain DictField)).
Defined.

(** * Further properties *)

(** ** Coercion on arbitrary inputs *)

Section CoercionInputs.
Context `{Imports}.

Lemma timedelta_seconds_in_range (n : Z) :
  -86399999913600 ≤ n ≤ 86399999999999 →
  ∃ td, timedelta_seconds n = Ok td ∧
        td_days td * 86400 + td_seconds td = n ∧
        0 ≤ td_seconds td < 86400 ∧
        td_microseconds td = 0.
Proof.
  intros Hn. unfold timedelta_seconds.
  assert (86400 ≠ 0) as Hnz by lia. assert (0 < 86400) as Hpos by lia.
  pose proof (Z.div_mod n 86400 Hnz) as Hdiv.
  pose proof (Z.mod_pos_bound n 86400 Hpos) as Hmod.
  assert ((Z.abs (n / 86400) <=? 999999999) = true) as -> by (apply Z.leb_le; lia).
  eexists. split; [reflexivity |]. simpl. lia.
Qed.

Lemma timedelta_seconds_out_of_range (n : Z) :
  n < -86399999913600 ∨ 86399999999999 < n →
  ∃ msg, timedelta_seconds n = Raise (PyExc "OverflowError" msg).
Proof.
  intros Hn. unfold timedelta_seconds.
  assert (86400 ≠ 0) as Hnz by lia. assert (0 < 86400) as Hpos by lia.
  pose proof (Z.div_mod n 86400 Hnz) as Hdiv.
  pose proof (Z.mod_pos_bound n 86400 Hpos) as Hmod.
  assert ((Z.abs (n / 86400) <=? 999999999) = false) as -> by (apply Z.leb_gt; lia).
  by eexists.
Qed.

(** Interval coercion of an [int] instance (a [bool] included) whose value
    fits a [timedelta] gives the duration of exactly that many seconds, in
    normalised form; the base class is not consulted. *)
Theorem interval_coercion_of_int (self : field) (data : value) :
  isinstance data [T_int] = true →
  -86399999913600 ≤ int_value data ≤ 86399999999999 →
  ∃ td, IntervalField__to_python self data = Ok (VTimedelta td) ∧
        td_days td * 86400 + td_seconds td = int_value data ∧
        0 ≤ td_seconds td < 86400 ∧
        td_microseconds td = 0.
Proof.
  intros Hint Hrange. unfold IntervalField__to_python. rewrite Hint.
  destruct (timedelta_seconds_in_range _ Hrange) as (td & -> & Htd).
  by exists td.
Qed.

(** Interval coercion of an integer beyond what [timedelta] holds raises
    [OverflowError]: the error is neither caught nor turned into a
    [ValidationException]. *)
Theorem interval_coercion_overflow (self : field) (data : value) :
  isinstance data [T_int] = true →
  int_value data < -86399999913600 ∨ 86399999999999 < int_value data →
  ∃ msg, IntervalField__to_python self data = Raise (PyExc "OverflowError" msg).
Proof.
  intros Hint Hrange. unfold IntervalField__to_python. rewrite Hint.
  destruct (timedelta_seconds_out_of_range _ Hrange) as (msg & ->).
  by exists msg.
Qed.

Lemma format_r_then_raise (pre post : string) (data v : value) (e : exn) :
  (msg ← format_r pre post data; Raise (ValidationException msg (Some e))) ≠ Ok v.
Proof. by destruct (format_r pre post data). Qed.

Lemma isinstance_datetime_inv (data : value) :
  isinstance data [T_datetime] = true → ∃ d, data = VDatetime d.
Proof. destruct data; try discriminate. by eexists. Qed.

Lemma isinstance_time_inv (data : value) :
  isinstance data [T_time] = true → ∃ t, data = VTime t.
Proof. destruct data; try discriminate. by eexists. Qed.

(** Whatever the input, a datetime coercion that returns gives [None] or a
    timestamp, and coercing that result again returns it unchanged. *)
Theorem datetime_coercion_idempotent (data v : value) :
  DateTimeField__to_python data = Ok v →
  (v = VNone ∨ ∃ d, v = VDatetime d) ∧
  DateTimeField__to_python v = Ok v.
Proof.
  unfold DateTimeField__to_python at 1.
  destruct (truthy data); cbn [negb]; [| by intros [= <-]; split; [left |]].
  destruct (isinstance data [T_datetime]) eqn:Hdt.
  - apply isinstance_datetime_inv in Hdt as [d ->].
    intros [= <-]. split; [right; by eexists | done].
  - destruct (parser_parse data) as [d | e].
    + intros [= <-]. split; [right; by eexists | done].
    + intros Hraise. by apply format_r_then_raise in Hraise.
Qed.

(** The same for time coercion: the result is [None] or a time of day, and
    is a fixed point of the coercion. *)
Theorem time_coercion_idempotent (data v : value) :
  TimeField__to_python data = Ok v →
  (v = VNone ∨ ∃ t, v = VTime t) ∧
  TimeField__to_python v = Ok v.
Proof.
  unfold TimeField__to_python at 1.
  destruct (truthy data); cbn [negb]; [| by intros [= <-]; split; [left |]].
  destruct (isinstance data [T_time]) eqn:Ht.
  - apply isinstance_time_inv in Ht as [t ->].
    intros [= <-]. split; [right; by eexists | done].
  - destruct data; cbn -[format_r];
      try (destruct (parser_parse _) as [parsed | pe];
           [| intros Hraise; first [done | by apply format_r_then_raise in Hraise]]);
      intros [= <-]; (split; [right; by eexists | done]).
Qed.

(** Time coercion goes through datetime coercion: for an input that is not
    already a time of day, coercing it to a timestamp first and the timestamp
    to a time gives what coercing it to a time directly gives. *)
Theorem time_coercion_through_datetime (data v : value) :
  isinstance data [T_time] = false →
  DateTimeField__to_python data = Ok v →
  TimeField__to_python data = TimeField__to_python v.
Proof.
  intros Ht. unfold DateTimeField__to_python, TimeField__to_python at 1.
  rewrite Ht.
  destruct (truthy data); cbn [negb]; [| by intros [= <-]].
  destruct (isinstance data [T_datetime]) eqn:Hdt.
  - apply isinstance_datetime_inv in Hdt as [d ->]. by intros [= <-].
  - destruct (parser_parse data) as [d | e].
    + intros [= <-]. by destruct data.
    + intros Hraise. by apply format_r_then_raise in Hraise.
Qed.

(** A time of day produced by time coercion from anything but a time of day
    is naive: the tzinfo of the timestamp it was cut from is gone. *)
Theorem time_coercion_drops_tzinfo (data : value) (t : time) :
  isinstance data [T_time] = false →
  TimeField__to_python data = Ok (VTime t) →
  t_tzinfo t = None.
Proof.
  intros Ht. unfold TimeField__to_python. rewrite Ht.
  destruct (truthy data); cbn [negb]; [| done].
  destruct data; cbn -[format_r];
    try (destruct (parser_parse _) as [parsed | pe];
         [| intros Hraise; first [done | by apply format_r_then_raise in Hraise]]);
    by intros [= <-].
Qed.

(** On an input that is not a tuple, the only exception datetime and time
    coercion raise is the [ValidationException] that wraps a failure of the
    parser on that very input. *)
Theorem coercion_error_is_parse_failure (data : value) (e : exn) :
  (∀ l, data ≠ VTuple l) →
  (DateTimeField__to_python data = Raise e →
   ∃ pe, parser_parse data = Raise pe ∧
         e = ValidationException
               ("Could not parse datetime from the value (" +:+ repr data +:+ ")")
               (Some pe)) ∧
  (TimeField__to_python data = Raise e →
   ∃ pe, parser_parse data = Raise pe ∧
         e = ValidationException
               ("Could not parse time from the value (" +:+ repr data +:+ ")")
               (Some pe)).
Proof.
  intros Htuple. split.
  - unfold DateTimeField__to_python.
    destruct (truthy data); cbn [negb]; [| done].
    destruct (isinstance data [T_datetime]); [done |].
    destruct (parser_parse data) as [d | pe]; [done |].
    destruct data; simpl; try (intros [= <-]; by eexists).
    by destruct (Htuple l).
  - unfold TimeField__to_python.
    destruct (truthy data); cbn [negb]; [| done].
    destruct (isinstance data [T_time]); [done |].
    destruct data; simpl; try done;
      try (destruct (parser_parse _) as [parsed | pe]; [done |];
           simpl; intros [= <-]; by eexists).
    by destruct (Htuple l).
Qed.

(** On a tuple of two or more elements that the parser rejects, building the
    error message fails itself: what propagates is a [TypeError], not a
    [ValidationException]. *)
Theorem coercion_of_tuple_type_error (l : list value) (pe : exn) :
  (1 < length l)%nat →
  parser_parse (VTuple l) = Raise pe →
  ∃ msg, DateTimeField__to_python (VTuple l) = Raise (PyExc "TypeError" msg) ∧
         TimeField__to_python (VTuple l) = Raise (PyExc "TypeError" msg).
Proof.
  intros Hlen Hparse.
  destruct l as [| x [| y l]]; simpl in Hlen; [lia | lia |].
  unfold DateTimeField__to_python, TimeField__to_python. simpl.
  rewrite Hparse. simpl. by eexists.
Qed.

End CoercionInputs.

(** ** Reference fields, from construction on *)

Section ReferenceConstruction.
Context `{Imports}.

(** The options the constructor hands on are the options without the
    prefixed ones. *)
Lemma del_backref_keys_filter (kwargs : dict) :
  del_backref_keys (backref_kwargs_of kwargs) kwargs =
  Ok (filter (λ kv, startswith kv.1 _backref_prefix = false) kwargs).
Proof.
  destruct (del_backref_keys_of kwargs) as (kw & -> & Hkw). f_equal.
  apply map_eq. intros k. rewrite Hkw. symmetry.
  destruct (startswith k _backref_prefix) eqn:Hp.
  - apply map_lookup_filter_None. right. intros v _. cbn [fst]. by rewrite Hp.
  - destruct (kwargs !! k) as [v |] eqn:Hk.
    + by apply map_lookup_filter_Some.
    + apply map_lookup_filter_None. by left.
Qed.

Lemma ReferenceField__init__Ok (doc_class is_backref : value)
    (args : list value) (kwargs : dict) (b : base_attrs) :
  Field__init__ LString args
    (filter (λ kv, startswith kv.1 _backref_prefix = false) kwargs) = Ok b →
  ReferenceField__init__ doc_class is_backref args kwargs =
  Ok {| f_class := ReferenceField;
        _multi := b_multi b;
        _required := b_required b;
        _params := b_params b;
        _primary_key := None;
        _backref_kwargs := Some (backref_kwargs_of kwargs);
        _is_backref := Some is_backref;
        _doc_class_name := Some doc_class |}.
Proof.
  intros Hinit. unfold ReferenceField__init__.
  rewrite del_backref_keys_filter. cbn [mbind result_bind]. by rewrite Hinit.
Qed.

(** The split of the options loses nothing: every option is found again,
    a prefixed one among the backref options under its stripped key, any
    other one among the options of the base constructor. *)
Theorem reference_kwargs_split_lossless (kwargs : dict) :
  ∃ base_kwargs,
    del_backref_keys (backref_kwargs_of kwargs) kwargs = Ok base_kwargs ∧
    ∀ key, kwargs !! key =
           if startswith key _backref_prefix
           then backref_kwargs_of kwargs !! slice_from (String.length _backref_prefix) key
           else base_kwargs !! key.
Proof.
  destruct (del_backref_keys_of kwargs) as (kw & Hdel & Hkw).
  exists kw. split; [done |]. intros key. rewrite Hkw.
  destruct (startswith key _backref_prefix) eqn:Hp; [| done].
  rewrite backref_kwargs_of_lookup. apply startswith_inv in Hp. by rewrite <- Hp.
Qed.

(** Without any prefixed option the constructor stores no backref option
    and hands the options to the base constructor as they came. *)
Theorem reference_without_backref_options (doc_class is_backref : value)
    (args : list value) (kwargs : dict) :
  (∀ key, is_Some (kwargs !! key) → startswith key _backref_prefix = false) →
  backref_kwargs_of kwargs = ∅ ∧
  ReferenceField__init__ doc_class is_backref args kwargs =
    (b ← Field__init__ LString args kwargs;
     mret {| f_class := ReferenceField;
             _multi := b_multi b;
             _required := b_required b;
             _params := b_params b;
             _primary_key := None;
             _backref_kwargs := Some ∅;
             _is_backref := Some is_backref;
             _doc_class_name := Some doc_class |}).
Proof.
  intros Hplain.
  assert (backref_kwargs_of kwargs = ∅) as Hempty.
  { apply map_empty. intros key. rewrite backref_kwargs_of_lookup.
    destruct (kwargs !! (_backref_prefix +:+ key)) as [v |] eqn:Hk; [| done].
    specialize (Hplain (_backref_prefix +:+ key)). rewrite Hk in Hplain.
    rewrite startswith_app in Hplain. by discriminate Hplain. }
  split; [done |].
  unfold ReferenceField__init__. rewrite del_backref_keys_filter.
  cbn [mbind result_bind]. rewrite Hempty.
  assert (filter (λ kv, startswith kv.1 _backref_prefix = false) kwargs = kwargs) as ->; [| done].
  apply map_filter_id. intros k v Hk. apply Hplain. by eexists.
Qed.

(** After construction, the backref field name is the [backref_name] option
    the constructor was given, and [None] when it was given none. *)
Theorem backref_field_name_of_constructed (doc_class is_backref : value)
    (args : list value) (kwargs : dict) (b : base_attrs) :
  Field__init__ LString args
    (filter (λ kv, startswith kv.1 _backref_prefix = false) kwargs) = Ok b →
  ∃ self, ReferenceField__init__ doc_class is_backref args kwargs = Ok self ∧
          ReferenceField__backref_field_name self =
            from_option id VNone (kwargs !! "backref_name").
Proof.
  intros Hinit. eexists. split; [by apply ReferenceField__init__Ok |].
  unfold ReferenceField__backref_field_name. simpl.
  by rewrite (backref_kwargs_of_lookup kwargs "name").
Qed.

(** Construction does not consult the registry: a reference to a name the
    registry does not know is built all the same, and it is [clean] that
    fails, on every value; once the name resolves, [clean] returns integers,
    strings and [None] as they are. *)
Theorem reference_resolution_is_lazy (doc_class is_backref : value)
    (args : list value) (kwargs : dict) (b : base_attrs) :
  Field__init__ LString args
    (filter (λ kv, startswith kv.1 _backref_prefix = false) kwargs) = Ok b →
  ∃ self, ReferenceField__init__ doc_class is_backref args kwargs = Ok self ∧
          (∀ e, get_document_cls doc_class = Raise e →
                ∀ data, ReferenceField_clean self data = Raise e) ∧
          (∀ cls, get_document_cls doc_class = Ok cls →
                  (∀ n, ReferenceField_clean self (VInt n) = Ok (VInt n)) ∧
                  (∀ s, ReferenceField_clean self (VStr s) = Ok (VStr s)) ∧
                  ReferenceField_clean self VNone = Ok VNone).
Proof.
  intros Hinit. eexists. split; [by apply ReferenceField__init__Ok |].
  unfold ReferenceField_clean, ReferenceField__doc_class. simpl. split.
  - intros e He data. by rewrite He.
  - intros cls Hcls. rewrite Hcls. by repeat split.
Qed.

(** [Relationship] with options that name neither [multi] nor [doc_class]
    is the reference field constructor called on the target, with
    [is_backref] taken from the options ([False] when absent) and [multi]
    set to [uselist]; the backref options are those of the call, and
    [nested] has no part in the result. *)
Theorem relationship_is_reference (document_type uselist nested : value) (kw : dict) :
  kw !! "multi" = None →
  kw !! "doc_class" = None →
  Relationship document_type uselist nested kw =
    ReferenceField__init__ document_type
      (from_option id (VBool false) (kw !! "is_backref")) []
      (<[ "multi" := uselist ]> (delete "is_backref" kw)) ∧
  backref_kwargs_of (<[ "multi" := uselist ]> (delete "is_backref" kw)) =
    backref_kwargs_of kw.
Proof.
  intros Hmulti Hdoc. split.
  - unfold Relationship. rewrite Hmulti, Hdoc. simpl.
    unfold ReferenceField_call, pop.
    rewrite lookup_insert_ne by done. rewrite lookup_insert_eq.
    rewrite lookup_delete_ne by done.
    rewrite lookup_insert_ne by done. rewrite lookup_insert_ne by done.
    f_equal. apply map_eq. intros k.
    destruct (decide (k = "is_backref")) as [-> | Hk1].
    { rewrite lookup_delete_eq, lookup_insert_ne by done. by rewrite lookup_delete_eq. }
    rewrite lookup_delete_ne by done.
    destruct (decide (k = "doc_class")) as [-> | Hk2].
    { rewrite lookup_delete_eq, lookup_insert_ne by done.
      by rewrite lookup_delete_ne. }
    rewrite lookup_delete_ne by done.
    destruct (decide (k = "multi")) as [-> | Hk3].
    { by rewrite !lookup_insert_eq. }
    rewrite !lookup_insert_ne by done. by rewrite lookup_delete_ne.
  - apply map_eq. intros key. rewrite !backref_kwargs_of_lookup.
    assert (startswith "multi" _backref_prefix = false) as Hm by done.
    assert (startswith "is_backref" _backref_prefix = false) as Hb by done.
    rewrite lookup_insert_ne.
    2: { intros Heq. by rewrite Heq, startswith_app in Hm. }
    rewrite lookup_delete_ne; [done |].
    intros Heq. by rewrite Heq, startswith_app in Hb.
Qed.

(** A second [multi] or [doc_class] among the options of [Relationship] is
    a [TypeError]. *)
Theorem relationship_duplicate_keyword (document_type uselist nested : value) (kw : dict) :
  is_Some (kw !! "multi") ∨ is_Some (kw !! "doc_class") →
  ∃ msg, Relationship document_type uselist nested kw = Raise (PyExc "TypeError" msg).
Proof.
  unfold Relationship. intros [[v Hv] | [v Hv]]; rewrite Hv.
  - by eexists.
  - destruct (kw !! "multi"); by eexists.
Qed.

(** The empty value of a relationship that is not required, for a base
    constructor that stores the [multi] and [required] options it is given:
    an empty [AttrList] when [uselist] is true, [None] otherwise; the base
    class's [empty] is left out of it. *)
Theorem relationship_empty (document_type uselist nested : value) (kw : dict)
    (self : field) :
  (∀ a kwargs b, Field__init__ LString a kwargs = Ok b →
                 b_multi b = from_option id (VBool false) (kwargs !! "multi") ∧
                 b_required b = from_option id (VBool false) (kwargs !! "required")) →
  truthy (from_option id (VBool false) (kw !! "required")) = false →
  Relationship document_type uselist nested kw = Ok self →
  ReferenceField_empty self =
    Ok (if truthy uselist then VAttrList [] else VNone).
Proof.
  intros Hlib Hreq Hrel.
  destruct (kw !! "multi") as [v |] eqn:Hmulti.
  { unfold Relationship in Hrel. by rewrite Hmulti in Hrel. }
  destruct (kw !! "doc_class") as [v |] eqn:Hdoc.
  { unfold Relationship in Hrel. by rewrite Hmulti, Hdoc in Hrel. }
  destruct (relationship_is_reference document_type uselist nested kw Hmulti Hdoc)
    as [Heq _].
  rewrite Heq in Hrel. unfold ReferenceField__init__ in Hrel.
  rewrite del_backref_keys_filter in Hrel. cbn [mbind result_bind] in Hrel.
  destruct (Field__init__ LString [] _) as [b |] eqn:Hinit; [| done].
  cbn [mbind result_bind mret result_ret] in Hrel. injection Hrel as <-.
  destruct (Hlib _ _ _ Hinit) as [Hm Hr].
  rewrite (map_lookup_filter_Some_2 _ _ "multi" uselist) in Hm;
    [| by rewrite lookup_insert_eq | done].
  assert (filter (λ kv, startswith kv.1 _backref_prefix = false)
            (<[ "multi" := uselist ]> (delete "is_backref" kw)) !! "required"
          = kw !! "required") as Hlookup.
  { destruct (kw !! "required") as [v |] eqn:Hk.
    - apply map_lookup_filter_Some. split; [| done].
      rewrite lookup_insert_ne by done. by rewrite lookup_delete_ne.
    - apply map_lookup_filter_None. left.
      rewrite lookup_insert_ne by done. by rewrite lookup_delete_ne. }
  rewrite Hlookup in Hr.
  unfold ReferenceField_empty. cbn [_required _multi].
  rewrite Hm, Hr. cbn [from_option id]. by rewrite Hreq.
Qed.

End ReferenceConstruction.

(** ** The required flag and the exported mapping *)

Section Flags.
Context `{Imports}.

(** For every class built on [BaseFieldMixin] other than the identifier
    field: the primary-key flag is the [primary_key] option as given
    ([False] when absent), the base constructor never sees that option, and
    with a base constructor that stores the [required] option it is given,
    the required flag is [True] when the primary-key option is true in
    Python's sense, and the caller's own [required] option otherwise. *)
Theorem mixin_flags (c : field_class) (args : list value) (kwargs : dict)
    (pk : value) (b : base_attrs) :
  from_option id (VBool false) (kwargs !! "primary_key") = pk →
  (∀ lc a kw b', Field__init__ lc a kw = Ok b' →
                 b_required b' = from_option id (VBool false) (kw !! "required")) →
  has_BaseFieldMixin c = true →
  c ≠ IdField →
  Field__init__ (lib_base c) args
    (if truthy pk
     then <[ "required" := VBool true ]> (delete "primary_key" kwargs)
     else delete "primary_key" kwargs) = Ok b →
  ∃ self, construct c args kwargs = Ok self ∧
          _primary_key self = Some pk ∧
          _required self =
            if truthy pk then VBool true
            else from_option id (VBool false) (kwargs !! "required").
Proof.
  intros Hpkopt Hlib Hmixin Hid Hinit.
  assert (construct c args kwargs = BaseFieldMixin__init__ c args kwargs) as ->
    by (by destruct c).
  unfold BaseFieldMixin__init__, pop. rewrite Hpkopt.
  destruct (truthy pk) eqn:Hpk; rewrite Hinit; cbn [mbind result_bind mret result_ret];
    (eexists; split; [reflexivity |]); cbn [_primary_key _required];
    (split; [done |]); rewrite (Hlib _ _ _ _ Hinit).
  - by rewrite lookup_insert_eq.
  - by rewrite lookup_delete_ne.
Qed.

(** The whole export, class by class: the fragment's entries written over
    the base export for the identifier, Dict, datetime, date and time
    fields, and the base export as it is for every other class, the
    reference field included. *)
Theorem export_by_class (self : field) (data : dict) :
  Field_to_dict (lib_base (f_class self)) self = Ok data →
  to_dict self =
    Ok match f_class self with
       | IdField => <[ "type" := VStr "string" ]> data
       | DictField =>
           <[ "type" := VStr "object" ]> (<[ "enabled" := VBool false ]> data)
       | DateTimeField | DateField =>
           <[ "type" := VStr "date" ]>
             (<[ "format" := VStr "dateOptionalTime" ]> data)
       | TimeField =>
           <[ "type" := VStr "date" ]> (<[ "format" := VStr "HH:mm:ss" ]> data)
       | _ => data
       end.
Proof.
  intros Hbase. unfold to_dict, CustomMappingMixin_to_dict. rewrite Hbase.
  destruct (f_class self);
    cbn [has_CustomMappingMixin _custom_mapping mbind result_bind mret result_ret];
    try reflexivity; unfold update; f_equal;
    rewrite <- ?insert_union_l, <- ?insert_union_singleton_l; reflexivity.
Qed.

End Flags.

(** ** The further properties on the concrete environment *)

Lemma Demo_init_multi_required (a : list value) (kw : dict) (b : base_attrs) :
  Demo.init LString a kw = Ok b →
  b_multi b = from_option id (VBool false) (kw !! "multi") ∧
  b_required b = from_option id (VBool false) (kw !! "required").
Proof.
  unfold Demo.init, pop. destruct a; [| done].
  intros [= <-]. simpl. by rewrite lookup_delete_ne.
Qed.

Lemma interval_coercion_of_int_witness :
  isinstance (VInt 90061) [T_int] = true ∧
  -86399999913600 ≤ int_value (VInt 90061) ≤ 86399999999999 ∧
  ∃ td, @IntervalField__to_python Demo.imports (Demo.plain IntervalField) (VInt 90061) =
          Ok (VTimedelta td) ∧
        td_days td * 86400 + td_seconds td = int_value (VInt 90061) ∧
        0 ≤ td_seconds td < 86400 ∧
        td_microseconds td = 0.
Proof.
  split; [reflexivity |]. split; [simpl; lia |].
  apply (@interval_coercion_of_int Demo.imports); [reflexivity | simpl; lia].
Defined.

Lemma interval_coercion_overflow_witness :
  isinstance (VInt 100000000000000) [T_int] = true ∧
  (int_value (VInt 100000000000000) < -86399999913600 ∨
   86399999999999 < int_value (VInt 100000000000000)) ∧
  ∃ msg, @IntervalField__to_python Demo.imports (Demo.plain IntervalField)
           (VInt 100000000000000) = Raise (PyExc "OverflowError" msg).
Proof.
  split; [reflexivity |]. split; [right; simpl; lia |].
  apply (@interval_coercion_overflow Demo.imports); [reflexivity | right; simpl; lia].
Defined.

Lemma datetime_coercion_idempotent_witness :
  @DateTimeField__to_python Demo.imports (VStr "2015-06-01T12:30:00+02:00") =
    Ok (VDatetime Demo.half_past_noon) ∧
  ((VDatetime Demo.half_past_noon = VNone ∨
    ∃ d, VDatetime Demo.half_past_noon = VDatetime d) ∧
   @DateTimeField__to_python Demo.imports (VDatetime Demo.half_past_noon) =
     Ok (VDatetime Demo.half_past_noon)).
Proof.
  split; [reflexivity |].
  apply (@datetime_coercion_idempotent Demo.imports (VStr "2015-06-01T12:30:00+02:00")).
  reflexivity.
Defined.

Lemma time_coercion_idempotent_witness :
  @TimeField__to_python Demo.imports (VStr "2015-06-01T12:30:00+02:00") =
    Ok (VTime (datetime_time Demo.half_past_noon)) ∧
  ((VTime (datetime_time Demo.half_past_noon) = VNone ∨
    ∃ t, VTime (datetime_time Demo.half_past_noon) = VTime t) ∧
   @TimeField__to_python Demo.imports (VTime (datetime_time Demo.half_past_noon)) =
     Ok (VTime (datetime_time Demo.half_past_noon))).
Proof.
  split; [reflexivity |].
  apply (@time_coercion_idempotent Demo.imports (VStr "2015-06-01T12:30:00+02:00")).
  reflexivity.
Defined.

Lemma time_coercion_through_datetime_witness :
  isinstance (VStr "2015-06-01T12:30:00+02:00") [T_time] = false ∧
  @DateTimeField__to_python Demo.imports (VStr "2015-06-01T12:30:00+02:00") =
    Ok (VDatetime Demo.half_past_noon) ∧
  @TimeField__to_python Demo.imports (VStr "2015-06-01T12:30:00+02:00") =
    @TimeField__to_python Demo.imports (VDatetime Demo.half_past_noon).
Proof.
  split; [reflexivity |]. split; [reflexivity |].
  apply (@time_coercion_through_datetime Demo.imports); reflexivity.
Defined.

Lemma time_coercion_drops_tzinfo_witness :
  isinstance (VDatetime Demo.half_past_noon) [T_time] = false ∧
  dt_tzinfo Demo.half_past_noon = Some 120 ∧
  @TimeField__to_python Demo.imports (VDatetime Demo.half_past_noon) =
    Ok (VTime (mk_time 12 30 0 0 None 0)) ∧
  t_tzinfo (mk_time 12 30 0 0 None 0) = None.
Proof.
  split; [reflexivity |]. split; [reflexivity |]. split; [reflexivity |].
  apply (@time_coercion_drops_tzinfo Demo.imports (VDatetime Demo.half_past_noon));
    reflexivity.
Defined.

Lemma coercion_error_is_parse_failure_witness :
  @DateTimeField__to_python Demo.imports (VInt 5) =
    Raise (ValidationException "Could not parse datetime from the value (<object>)"
             (Some (PyExc "TypeError" "Parser must be a string or character stream"))) ∧
  ∃ pe, @parser_parse Demo.imports (VInt 5) = Raise pe ∧
        ValidationException "Could not parse datetime from the value (<object>)"
          (Some (PyExc "TypeError" "Parser must be a string or character stream")) =
        ValidationException
          ("Could not parse datetime from the value (" +:+
           @repr Demo.imports (VInt 5) +:+ ")") (Some pe).
Proof.
  split; [reflexivity |].
  apply (@coercion_error_is_parse_failure Demo.imports (VInt 5)); [done | reflexivity].
Defined.

Lemma coercion_of_tuple_type_error_witness :
  (1 < length [VInt 1; VInt 2])%nat ∧
  @parser_parse Demo.imports (VTuple [VInt 1; VInt 2]) =
    Raise (PyExc "TypeError" "Parser must be a string or character stream") ∧
  ∃ msg, @DateTimeField__to_python Demo.imports (VTuple [VInt 1; VInt 2]) =
           Raise (PyExc "TypeError" msg) ∧
         @TimeField__to_python Demo.imports (VTuple [VInt 1; VInt 2]) =
           Raise (PyExc "TypeError" msg).
Proof.
  split; [simpl; lia |]. split; [reflexivity |].
  apply (@coercion_of_tuple_type_error Demo.imports [VInt 1; VInt 2]
           (PyExc "TypeError" "Parser must be a string or character stream"));
    [simpl; lia | reflexivity].
Defined.

Lemma reference_without_backref_options_witness :
  backref_kwargs_of {[ "multi" := VBool true ]} = ∅ ∧
  @ReferenceField__init__ Demo.imports (VStr "Story") (VBool false) []
      {[ "multi" := VBool true ]} =
    (b ← Demo.init LString [] {[ "multi" := VBool true ]};
     mret {| f_class := ReferenceField;
             _multi := b_multi b;
             _required := b_required b;
             _params := b_params b;
             _primary_key := None;
             _backref_kwargs := Some ∅;
             _is_backref := Some (VBool false);
             _doc_class_name := Some (VStr "Story") |}).
Proof.
  apply (@reference_without_backref_options Demo.imports).
  intros key [v Hv]. apply lookup_singleton_Some in Hv as [<- _]. reflexivity.
Defined.

Lemma backref_field_name_of_constructed_witness :
  ∃ self, @ReferenceField__init__ Demo.imports (VStr "Story") (VBool false) []
            (<[ "backref_name" := VStr "authored_posts" ]> {[ "multi" := VBool true ]}) =
            Ok self ∧
          ReferenceField__backref_field_name self =
            from_option id VNone
              ((<[ "backref_name" := VStr "authored_posts" ]> {[ "multi" := VBool true ]} : dict)
                 !! "backref_name").
Proof.
  apply (@backref_field_name_of_constructed Demo.imports _ _ [] _
           (mk_base (VBool true) (VBool false) ∅)).
  by vm_compute.
Defined.

Lemma reference_resolution_is_lazy_witness :
  @get_document_cls Demo.imports (VStr "Author") = Raise (PyExc "LookupError" "Author") ∧
  ∃ self, @ReferenceField__init__ Demo.imports (VStr "Author") (VBool false) [] ∅ = Ok self ∧
          (∀ e, @get_document_cls Demo.imports (VStr "Author") = Raise e →
                ∀ data, @ReferenceField_clean Demo.imports self data = Raise e) ∧
          (∀ cls, @get_document_cls Demo.imports (VStr "Author") = Ok cls →
                  (∀ n, @ReferenceField_clean Demo.imports self (VInt n) = Ok (VInt n)) ∧
                  (∀ s, @ReferenceField_clean Demo.imports self (VStr s) = Ok (VStr s)) ∧
                  @ReferenceField_clean Demo.imports self VNone = Ok VNone).
Proof.
  split; [reflexivity |].
  apply (@reference_resolution_is_lazy Demo.imports _ _ [] ∅
           (mk_base (VBool false) (VBool false) ∅)).
  by vm_compute.
Defined.

Lemma relationship_is_reference_witness :
  ({[ "backref_name" := VStr "stories" ]} : dict) !! "multi" = None ∧
  ({[ "backref_name" := VStr "stories" ]} : dict) !! "doc_class" = None ∧
  @Relationship Demo.imports (VStr "Story") (VBool true) (VBool true)
      {[ "backref_name" := VStr "stories" ]} =
    @ReferenceField__init__ Demo.imports (VStr "Story")
      (from_option id (VBool false)
         (({[ "backref_name" := VStr "stories" ]} : dict) !! "is_backref")) []
      (<[ "multi" := VBool true ]>
         (delete "is_backref" {[ "backref_name" := VStr "stories" ]})) ∧
  backref_kwargs_of
      (<[ "multi" := VBool true ]>
         (delete "is_backref" {[ "backref_name" := VStr "stories" ]})) =
    backref_kwargs_of {[ "backref_name" := VStr "stories" ]}.
Proof.
  split; [reflexivity |]. split; [reflexivity |].
  apply (@relationship_is_reference Demo.imports); reflexivity.
Defined.

Lemma relationship_duplicate_keyword_witness :
  (is_Some (({[ "multi" := VBool false ]} : dict) !! "multi") ∨
   is_Some (({[ "multi" := VBool false ]} : dict) !! "doc_class")) ∧
  ∃ msg, @Relationship Demo.imports (VStr "Story") (VBool true) (VBool true)
           {[ "multi" := VBool false ]} = Raise (PyExc "TypeError" msg).
Proof.
  assert (is_Some (({[ "multi" := VBool false ]} : dict) !! "multi")) as Hmulti
    by (by eexists).
  split; [by left |].
  apply (@relationship_duplicate_keyword Demo.imports). by left.
Defined.

Lemma relationship_empty_witness :
  truthy (from_option id (VBool false) ((∅ : dict) !! "required")) = false ∧
  @Relationship Demo.imports (VStr "Story") (VBool true) (VBool true) ∅ =
    Ok {| f_class := ReferenceField;
          _multi := VBool true;
          _required := VBool false;
          _params := ∅;
          _primary_key := None;
          _backref_kwargs := Some ∅;
          _is_backref := Some (VBool false);
          _doc_class_name := Some (VStr "Story") |} ∧
  @ReferenceField_empty Demo.imports
      {| f_class := ReferenceField;
         _multi := VBool true;
         _required := VBool false;
         _params := ∅;
         _primary_key := None;
         _backref_kwargs := Some ∅;
         _is_backref := Some (VBool false);
         _doc_class_name := Some (VStr "Story") |} =
    Ok (if truthy (VBool true) then VAttrList [] else VNone).
Proof.
  split; [reflexivity |]. split; [by vm_compute |].
  apply (@relationship_empty Demo.imports (VStr "Story") (VBool true) (VBool true) ∅).
  - exact Demo_init_multi_required.
  - reflexivity.
  - by vm_compute.
Defined.

Lemma mixin_flags_witness :
  from_option id (VBool false)
    ((<[ "primary_key" := VInt 1 ]> {[ "required" := VBool false ]} : dict)
       !! "primary_key") = VInt 1 ∧
  has_BaseFieldMixin IntegerField = true ∧
  IntegerField ≠ IdField ∧
  ∃ self, @construct Demo.imports IntegerField []
            (<[ "primary_key" := VInt 1 ]> {[ "required" := VBool false ]}) = Ok self ∧
          _primary_key self = Some (VInt 1) ∧
          _required self =
            if truthy (VInt 1) then VBool true
            else from_option id (VBool false)
                   ((<[ "primary_key" := VInt 1 ]> {[ "required" := VBool false ]} : dict)
                      !! "required").
Proof.
  split; [reflexivity |]. split; [reflexivity |]. split; [discriminate |].
  apply (@mixin_flags Demo.imports IntegerField [] _ (VInt 1)
           (mk_base (VBool false) (VBool true) ∅)).
  - reflexivity.
  - exact Demo_init_required.
  - reflexivity.
  - discriminate.
  - by vm_compute.
Defined.

Lemma export_by_class_witness :
  @Field_to_dict Demo.imports LField (Demo.plain TimeField) =
    Ok {[ "type" := VStr "field" ]} ∧
  @to_dict Demo.imports (Demo.plain TimeField) =
    Ok (<[ "type" := VStr "date" ]>
          (<[ "format" := VStr "HH:mm:ss" ]> {[ "type" := VStr "field" ]})).
Proof.
  split; [reflexivity |].
  by apply (@export_by_class Demo.imports (Demo.plain TimeField)).
Defined.
